(** * TorchPolicyGraph: a shallow embedding of
      python/ray/rllib/evaluation/torch_policy_graph.py

    The class is an adapter between a training loop and a differentiable
    tensor runtime.  The embedding keeps the adapter's code as it is
    written and takes the runtime (model forward pass, loss, autograd,
    optimizer, action distribution) as an interface, [TorchRuntime].

    - A tensor is a device tag together with the array it holds.  Moving a
      tensor ([cpu], [to]) changes the tag only; [numpy] is defined on host
      tensors and raises [TypeError] on accelerator tensors, as the tensor
      library does.  Shapes and dtypes are not part of the model: where
      the adapter's own statement can fail on them (the gradient
      assignment of line 128, the move to the accelerator of line 57) the
      runtime decides ([grad_check], [cuda_init]).  Tensors are values:
      storage shared between a parameter and an array returned to the
      caller, and the [requires_grad] flag, are outside the model.
    - A method is a computation in the monad [M]: it threads the world
      (the policy object, the library's gradient mode and generator, and a
      log of lock and state events), ends in [Ok] or [Raise], or blocks
      forever ([None]) when it waits for a lock that is never released.
    - [with self.lock:] is [with_lock], [with torch.no_grad():] is
      [no_grad]; both run their exit action on the normal and on the
      exceptional path. *)

From stdpp Require Import base option list strings gmap.

(** ** Exceptions and results *)

Inductive Exn : Type :=
  | TypeError (msg : string)
  | KeyError (key : string)
  | RuntimeError (msg : string)
  | ValueError (msg : string).

Inductive Result (A : Type) : Type :=
  | Ok (a : A)
  | Raise (e : Exn).
Arguments Ok {A} a.
Arguments Raise {A} e.

Definition result_bind {A B} (r : Result A) (k : A → Result B) : Result B :=
  match r with
  | Ok a => k a
  | Raise e => Raise e
  end.

(** [[f x for x in xs]] with an [f] that may raise: the first exception
    wins and nothing is returned. *)
Fixpoint result_map {A B} (f : A → Result B) (xs : list A) : Result (list B) :=
  match xs with
  | [] => Ok []
  | x :: xs' =>
      result_bind (f x) (λ y,
      result_bind (result_map f xs') (λ ys, Ok (y :: ys)))
  end.

(** ** Devices, tensors, parameters, modules *)

Inductive Device : Type := Cpu | Cuda.

#[global] Instance Device_eq_dec : EqDecision Device.
Proof. solve_decision. Defined.

(** The types the surrounding libraries provide. *)
Class TorchTypes : Type := {
  Array : Type;       (* numpy.ndarray *)
  Features : Type;    (* second output of the model *)
  Dist : Type;        (* an action distribution object *)
  LossOut : Type;     (* the scalar loss with its autograd graph *)
  Optimizer : Type;   (* a torch.optim optimizer object *)
  Rng : Type;         (* the library's random generator state *)
  Space : Type;       (* gym.Space *)
  CfgVal : Type;      (* values of the config dict *)
  Stat : Type;        (* values of the statistics dicts *)
}.

Section Embedding.
Context `{TT : TorchTypes}.

Record Tensor : Type := mkTensor {
  t_device : Device;
  t_data : Array;
}.

(** [Tensor.cpu()], [Tensor.to(device)], [torch.from_numpy], [Tensor.data]. *)
Definition to (d : Device) (t : Tensor) : Tensor :=
  {| t_device := d; t_data := t_data t |}.
Definition cpu (t : Tensor) : Tensor := to Cpu t.
Definition from_numpy (a : Array) : Tensor :=
  {| t_device := Cpu; t_data := a |}.
Definition data (t : Tensor) : Tensor := t.

(** [Tensor.numpy()]: only host tensors convert. *)
Definition numpy (t : Tensor) : Result Array :=
  match t_device t with
  | Cpu => Ok (t_data t)
  | Cuda => Raise (TypeError "can't convert CUDA tensor to numpy")
  end.

Record Param : Type := mkParam {
  p_name : string;
  p_data : Tensor;
  p_grad : option Tensor;
}.

Definition set_grad (p : Param) (g : option Tensor) : Param :=
  {| p_name := p_name p; p_data := p_data p; p_grad := g |}.
Definition set_data (p : Param) (t : Tensor) : Param :=
  {| p_name := p_name p; p_data := t; p_grad := p_grad p |}.

(** An [nn.Module]: its parameters in registration order (what
    [parameters()] yields) and its persistent buffers. *)
Record NNModule : Type := mkModule {
  m_params : list Param;
  m_buffers : list (string * Tensor);
}.

Definition set_params (m : NNModule) (ps : list Param) : NNModule :=
  {| m_params := ps; m_buffers := m_buffers m |}.

(** [Module.to(device)] moves parameters, their gradients and buffers. *)
Definition module_to (d : Device) (m : NNModule) : NNModule :=
  {| m_params :=
       map (λ p, {| p_name := p_name p; p_data := to d (p_data p);
                    p_grad := to d <$> p_grad p |}) (m_params m);
     m_buffers := map (λ nt, (nt.1, to d nt.2)) (m_buffers m) |}.

Definition module_names (m : NNModule) : list string :=
  map p_name (m_params m) ++ map fst (m_buffers m).

(** [Module.state_dict()]: parameters and buffers by name. *)
Definition state_dict (m : NNModule) : gmap string Tensor :=
  list_to_map (map (λ p, (p_name p, p_data p)) (m_params m) ++ m_buffers m).

(** [Tensor.copy_]: the destination keeps its device and takes the
    source's contents. *)
Definition copy_ (dst src : Tensor) : Tensor :=
  {| t_device := t_device dst; t_data := t_data src |}.

Definition load_tensor (w : gmap string Tensor) (name : string) (t : Tensor) : Tensor :=
  match w !! name with
  | Some v => copy_ t v
  | None => t
  end.

(** [Module.load_state_dict(w)] (strict): every entry whose key is present
    is copied in; afterwards missing or unexpected keys raise. *)
Definition load_state_dict (m : NNModule) (w : gmap string Tensor)
  : Result unit * NNModule :=
  let m' := {| m_params := map (λ p, set_data p (load_tensor w (p_name p) (p_data p)))
                               (m_params m);
               m_buffers := map (λ nt, (nt.1, load_tensor w nt.1 nt.2))
                                (m_buffers m) |} in
  (if decide (dom w = list_to_set (module_names m))
   then Ok ()
   else Raise (RuntimeError "Error(s) in loading state_dict"),
   m').

(** ** The batch wrapper *)

(** Modelled from the spec: [ray.rllib.utils.tracking_dict.UsageTrackingDict]
    is imported by the file and is not among the sources.  The spec
    describes a wrapper of the batch mapping in which each field is converted to
    device form at most once, on first access, and which records the fields
    that were read. *)
Record UsageTrackingDict : Type := mkUTD {
  utd_data : gmap string Array;
  utd_interceptor : option (Array → Tensor);
  utd_intercepted : gmap string Tensor;
  utd_accessed : gset string;
}.

Definition UsageTrackingDict_new (d : gmap string Array) : UsageTrackingDict :=
  {| utd_data := d; utd_interceptor := None;
     utd_intercepted := ∅; utd_accessed := ∅ |}.

Definition set_get_interceptor (u : UsageTrackingDict) (f : Array → Tensor)
  : UsageTrackingDict :=
  {| utd_data := utd_data u; utd_interceptor := Some f;
     utd_intercepted := utd_intercepted u; utd_accessed := utd_accessed u |}.

Definition utd_getitem (u : UsageTrackingDict) (key : string)
  : option (Tensor * UsageTrackingDict) :=
  match utd_intercepted u !! key with
  | Some t =>
      Some (t, {| utd_data := utd_data u; utd_interceptor := utd_interceptor u;
                  utd_intercepted := utd_intercepted u;
                  utd_accessed := {[key]} ∪ utd_accessed u |})
  | None =>
      a ← utd_data u !! key;
      f ← utd_interceptor u;
      Some (f a, {| utd_data := utd_data u; utd_interceptor := utd_interceptor u;
                    utd_intercepted := <[key := f a]> (utd_intercepted u);
                    utd_accessed := {[key]} ∪ utd_accessed u |})
  end.

(** ** The policy object *)

(** The attributes [__init__] sets, and [config], which a subclass may have
    attached before ([hasattr(self, "config")] is [config ≠ None]).
    [lock] is [true] while the lock is held.  [_loss] and
    [_action_dist_cls] are callables and belong to the runtime below. *)
Record TorchPolicyGraph : Type := mkPolicy {
  observation_space : Space;
  action_space : Space;
  lock : bool;
  device : Device;
  _model : NNModule;
  _optimizer : Optimizer;
  config : option (gmap string CfgVal);
}.

(** The model's outputs: [(logits, features, value, recurrent state)]. *)
Definition ModelOut : Type := (Tensor * Features * Tensor * list Tensor)%type.

(** What the file calls and does not define.  A call that can mutate the
    parameters returns the list it leaves behind together with its
    outcome, so that an exception may leave a partial update. *)
Class TorchRuntime : Type := {
  (* np.array(obs_batch) and Tensor.float() *)
  np_array : list Array → Array;
  tensor_float : Tensor → Tensor;
  (* self._model({"obs": ob}, state_batches); the flag is the gradient mode *)
  model_forward : bool → NNModule → Tensor → option (list Array) → Result ModelOut;
  (* self._model.state_init() *)
  model_state_init : NNModule → list Tensor;
  (* self._loss(self, batch_tensors) *)
  loss_fn : bool → TorchPolicyGraph → UsageTrackingDict → Result LossOut;
  (* loss_out.backward() *)
  backward : LossOut → list Param → Result unit * list Param;
  (* self._action_dist_cls(logits) and action_dist.sample() *)
  action_dist_cls : Tensor → Result Dist;
  dist_sample : Dist → Rng → Result (Tensor * Rng);
  (* optimizer.zero_grad(), optimizer.step() *)
  optim_zero_grad : Optimizer → list Param → list Param;
  optim_step : Optimizer → list Param → Result unit * (Optimizer * list Param);
  (* p.grad = t: the setter's check of a new gradient t against the
     parameter's tensor (shape, dtype); an error leaves p.grad as it was *)
  grad_check : Tensor → Tensor → Result unit;
  (* model.to(torch.device("cuda")): the error raised when no CUDA device
     is usable, if any *)
  cuda_init : Result unit;
  (* torch.optim.Adam(params) and torch.optim.Adam(params, lr=...) *)
  torch_optim_Adam : list Param → option CfgVal → Result Optimizer;
  (* ray.rllib.evaluation.metrics.LEARNER_STATS_KEY *)
  LEARNER_STATS_KEY : string;
}.

Context `{RT : TorchRuntime}.

(** ** The world and the method monad *)

Inductive Event : Type :=
  | EvAcquire        (* self.lock acquired *)
  | EvRelease        (* self.lock released *)
  | EvModel          (* self._model, its parameters or their gradients used *)
  | EvOptimizer.     (* self._optimizer used *)

Record World : Type := mkWorld {
  self : TorchPolicyGraph;
  grad_enabled : bool;       (* torch.is_grad_enabled() *)
  rng : Rng;
  trace : list Event;        (* oldest event first *)
}.

Definition M (A : Type) : Type := World → option (Result A * World).

Definition ret {A} (a : A) : M A := λ w, Some (Ok a, w).
Definition lift {A} (r : Result A) : M A := λ w, Some (r, w).
Definition bind {A B} (m : M A) (k : A → M B) : M B := λ w,
  match m w with
  | None => None
  | Some (Ok a, w') => k a w'
  | Some (Raise e, w') => Some (Raise e, w')
  end.

(** [try: body finally: fin]. *)
Definition finally {A} (body : M A) (fin : M unit) : M A := λ w,
  match body w with
  | None => None
  | Some (r, w') =>
      match fin w' with
      | None => None
      | Some (Ok _, w'') => Some (r, w'')
      | Some (Raise e, w'') => Some (Raise e, w'')
      end
  end.

Definition gets {A} (f : World → A) : M A := λ w, Some (Ok (f w), w).
Definition modify (f : World → World) : M unit := λ w, Some (Ok (), f w).

#[global] Instance M_ret : MRet M := @ret.
#[global] Instance M_bind : MBind M := λ A B k m, bind m k.

(** ** Lock and gradient mode *)

Definition set_lock (b : bool) (s : TorchPolicyGraph) : TorchPolicyGraph :=
  {| observation_space := observation_space s; action_space := action_space s;
     lock := b; device := device s; _model := _model s;
     _optimizer := _optimizer s; config := config s |}.
Definition set_model (m : NNModule) (s : TorchPolicyGraph) : TorchPolicyGraph :=
  {| observation_space := observation_space s; action_space := action_space s;
     lock := lock s; device := device s; _model := m;
     _optimizer := _optimizer s; config := config s |}.
Definition set_optimizer (o : Optimizer) (s : TorchPolicyGraph) : TorchPolicyGraph :=
  {| observation_space := observation_space s; action_space := action_space s;
     lock := lock s; device := device s; _model := _model s;
     _optimizer := o; config := config s |}.

Definition with_self (f : TorchPolicyGraph → TorchPolicyGraph) (w : World) : World :=
  {| self := f (self w); grad_enabled := grad_enabled w; rng := rng w;
     trace := trace w |}.
Definition set_grad_enabled (b : bool) (w : World) : World :=
  {| self := self w; grad_enabled := b; rng := rng w; trace := trace w |}.
Definition set_rng (r : Rng) (w : World) : World :=
  {| self := self w; grad_enabled := grad_enabled w; rng := r; trace := trace w |}.
Definition log (e : Event) (w : World) : World :=
  {| self := self w; grad_enabled := grad_enabled w; rng := rng w;
     trace := trace w ++ [e] |}.

(** [Lock.acquire()]: blocks while the lock is held. *)
Definition acquire : M unit := λ w,
  if lock (self w) then None
  else Some (Ok (), log EvAcquire (with_self (set_lock true) w)).

(** [Lock.release()]: releasing an unlocked lock is an error. *)
Definition release : M unit := λ w,
  if lock (self w)
  then Some (Ok (), log EvRelease (with_self (set_lock false) w))
  else Some (Raise (RuntimeError "release unlocked lock"), w).

(** [with self.lock: body] *)
Definition with_lock {A} (body : M A) : M A :=
  acquire;; finally body release.

(** [with torch.no_grad(): body] *)
Definition no_grad {A} (body : M A) : M A := λ w,
  let prev := grad_enabled w in
  finally body (modify (set_grad_enabled prev)) (set_grad_enabled false w).

(** ** Uses of [self._model] and [self._optimizer] *)

(** Each of these logs the object the statement goes through. *)

Definition model : M NNModule := λ w,
  Some (Ok (_model (self w)), log EvModel w).

Definition model_parameters : M (list Param) :=
  m ← model; mret (m_params m).

Definition put_parameters (ps : list Param) : M unit :=
  modify (with_self (λ s, set_model (set_params (_model s) ps) s)).

(** [self._loss(self, batch_tensors)]: the loss reads the policy. *)
Definition call_loss (batch_tensors : UsageTrackingDict) : M LossOut := λ w,
  Some (loss_fn (grad_enabled w) (self w) batch_tensors, log EvModel w).

(** [loss_out.backward()]: writes the parameters' gradients. *)
Definition loss_backward (loss_out : LossOut) : M unit := λ w,
  let '(r, ps) := backward loss_out (m_params (_model (self w))) in
  Some (r, log EvModel (with_self (λ s, set_model (set_params (_model s) ps) s) w)).

(** [self._optimizer.zero_grad()] *)
Definition optimizer_zero_grad : M unit := λ w,
  let ps := optim_zero_grad (_optimizer (self w)) (m_params (_model (self w))) in
  Some (Ok (),
        log EvOptimizer (with_self (λ s, set_model (set_params (_model s) ps) s) w)).

(** [self._optimizer.step()] *)
Definition optimizer_step : M unit := λ w,
  let '(r, (o, ps)) := optim_step (_optimizer (self w)) (m_params (_model (self w))) in
  Some (r,
        log EvOptimizer
          (with_self (λ s, set_optimizer o (set_model (set_params (_model s) ps) s)) w)).

(** [action_dist.sample()] draws from the library's generator. *)
Definition sample (d : Dist) : M Tensor := λ w,
  match dist_sample d (rng w) with
  | Ok (a, r) => Some (Ok a, set_rng r w)
  | Raise e => Some (Raise e, w)
  end.

(** ** The extension points (lines 145-168) *)

(** [extra_grad_process], [extra_action_out], [extra_grad_info]: the base
    class returns an empty dict from each. *)
Definition extra_grad_process : M (gmap string Stat) := mret ∅.
Definition extra_action_out (model_out : ModelOut) : M (gmap string Stat) := mret ∅.
Definition extra_grad_info (batch_tensors : UsageTrackingDict)
  : M (gmap string Stat) := mret ∅.

(** [optimizer]: runs inside [__init__], when [_model] (and [config], if a
    subclass attached one) are set and [_optimizer] is not yet.
    [config["lr"]] raises [KeyError] on a dict without the key. *)
Definition optimizer (cfg : option (gmap string CfgVal)) (m : NNModule)
  : Result Optimizer :=
  match cfg with
  | Some c =>
      match c !! "lr" with
      | Some lr => torch_optim_Adam (m_params m) (Some lr)
      | None => Raise (KeyError "lr")
      end
  | None => torch_optim_Adam (m_params m) None
  end.

(** [_lazy_tensor_dict] (lines 170-174) *)
Definition _lazy_tensor_dict (postprocessed_batch : gmap string Array)
  : M UsageTrackingDict :=
  s ← gets self;
  let batch_tensors := UsageTrackingDict_new postprocessed_batch in
  mret (set_get_interceptor batch_tensors (λ arr, to (device s) (from_numpy arr))).

(** ** Construction (lines 33-60) *)

(** [bool(os.environ.get("CUDA_VISIBLE_DEVICES", None))]: [None] and the
    empty string are false, every other string is true. *)
Definition cuda_visible (environ : gmap string string) : bool :=
  match environ !! "CUDA_VISIBLE_DEVICES" with
  | Some v => negb (String.eqb v "")
  | None => false
  end.

Definition __init__ (environ : gmap string string)
    (cfg : option (gmap string CfgVal))
    (observation_space action_space : Space) (model : NNModule)
  : Result TorchPolicyGraph :=
  let device := if cuda_visible environ then Cuda else Cpu in
  result_bind (match device with Cuda => cuda_init | Cpu => Ok () end) (λ _,
  let _model := module_to device model in
  result_bind (optimizer cfg _model) (λ _optimizer,
  Ok {| observation_space := observation_space; action_space := action_space;
        lock := false; device := device; _model := _model;
        _optimizer := _optimizer; config := cfg |})).

(** ** The seven public operations *)

(** [compute_actions] (lines 62-81).  Only [obs_batch] and [state_batches]
    are used by the body. *)
Definition compute_actions (obs_batch : list Array)
    (state_batches : option (list Array))
  : M (Array * list Array * gmap string Stat) :=
  with_lock (no_grad (
    dev ← gets (λ w, device (self w));
    let ob := to dev (tensor_float (from_numpy (np_array obs_batch))) in
    m ← model;
    ge ← gets grad_enabled;
    model_out ← lift (model_forward ge m ob state_batches);
    let '(logits, _, vf, state) := model_out in
    action_dist ← lift (action_dist_cls logits);
    actions ← sample action_dist;
    a ← lift (numpy (cpu actions));
    hs ← lift (result_map (λ h, numpy (cpu h)) state);
    extra ← extra_action_out model_out;
    mret (a, hs, extra))).

(** [grad_info.update(grad_process_info)]: the argument's entries win. *)
Definition dict_update {V} (d other : gmap string V) : gmap string V := other ∪ d.

(** [learn_on_batch] (lines 83-97) *)
Definition learn_on_batch (postprocessed_batch : gmap string Array)
  : M (gmap string (gmap string Stat)) :=
  batch_tensors ← _lazy_tensor_dict postprocessed_batch;
  with_lock (
    loss_out ← call_loss batch_tensors;
    optimizer_zero_grad;;
    loss_backward loss_out;;
    grad_process_info ← extra_grad_process;
    optimizer_step;;
    grad_info ← extra_grad_info batch_tensors;
    let grad_info := dict_update grad_info grad_process_info in
    mret {[ LEARNER_STATS_KEY := grad_info ]}).

(** The loop body of lines 113-117: [p.grad.data.cpu().numpy()] or [None]. *)
Definition grad_to_numpy (p : Param) : Result (option Array) :=
  match p_grad p with
  | Some g => result_bind (numpy (cpu (data g))) (λ a, Ok (Some a))
  | None => Ok None
  end.

(** [compute_gradients] (lines 99-121) *)
Definition compute_gradients (postprocessed_batch : gmap string Array)
  : M (list (option Array) * gmap string (gmap string Stat)) :=
  batch_tensors ← _lazy_tensor_dict postprocessed_batch;
  with_lock (
    loss_out ← call_loss batch_tensors;
    optimizer_zero_grad;;
    loss_backward loss_out;;
    grad_process_info ← extra_grad_process;
    ps ← model_parameters;
    grads ← lift (result_map grad_to_numpy ps);
    grad_info ← extra_grad_info batch_tensors;
    let grad_info := dict_update grad_info grad_process_info in
    mret (grads, {[ LEARNER_STATS_KEY := grad_info ]})).

(** The loop of lines 126-128 over [zip(gradients, parameters)]: [zip]
    stops at the shorter of the two, and the parameters it does not reach
    keep what they have.  A [None] entry is skipped.  For an array, line
    128 builds the tensor on the policy's device and assigns it; when the
    assignment raises, the loop ends there: the parameters before keep
    their new gradients, this one and the ones after keep what they had. *)
Fixpoint assign_grads (dev : Device) (gradients : list (option Array))
    (ps : list Param) : Result unit * list Param :=
  match gradients, ps with
  | g :: gradients', p :: ps' =>
      match g with
      | Some a =>
          let t := to dev (from_numpy a) in
          match grad_check (p_data p) t with
          | Ok _ =>
              let rest := assign_grads dev gradients' ps' in
              (rest.1, set_grad p (Some t) :: rest.2)
          | Raise e => (Raise e, p :: ps')
          end
      | None =>
          let rest := assign_grads dev gradients' ps' in
          (rest.1, p :: rest.2)
      end
  | _, _ => (Ok (), ps)
  end.

(** [apply_gradients] (lines 123-129) *)
Definition apply_gradients (gradients : list (option Array)) : M unit :=
  with_lock (
    ps ← model_parameters;
    dev ← gets (λ w, device (self w));
    let assigned := assign_grads dev gradients ps in
    put_parameters assigned.2;;
    lift assigned.1;;
    optimizer_step).

(** [get_weights] (lines 131-134) *)
Definition get_weights : M (gmap string Tensor) :=
  with_lock (
    m ← model;
    mret (cpu <$> state_dict m)).

(** [set_weights] (lines 136-139) *)
Definition set_weights (weights : gmap string Tensor) : M unit :=
  with_lock (
    m ← model;
    let '(r, m') := load_state_dict m weights in
    modify (with_self (set_model m'));;
    lift r).

(** [get_initial_state] (lines 141-143): no [with self.lock], no [.cpu()]. *)
Definition get_initial_state : M (list Array) :=
  m ← model;
  lift (result_map numpy (model_state_init m)).

(** ** Vocabulary of the properties *)

(** The events a call appended are a well-locked call when the first is
    the acquisition, the last is the release, and every event in between
    uses the model or the optimizer. *)
Fixpoint held_throughout (evs : list Event) : bool :=
  match evs with
  | [EvRelease] => true
  | EvModel :: evs' | EvOptimizer :: evs' => held_throughout evs'
  | _ => false
  end.

Definition locked_call (evs : list Event) : bool :=
  match evs with
  | EvAcquire :: evs' => held_throughout evs'
  | _ => false
  end.

(** Every gradient the parameters carry lives on [dev]. *)
Definition grads_on (dev : Device) (ps : list Param) : bool :=
  forallb (λ p, match p_grad p with
                | Some g => bool_decide (t_device g = dev)
                | None => true
                end) ps.

(** Every gradient the parameters carry is one the setter of line 128
    accepts for its parameter. *)
Definition grads_accepted (ps : list Param) : bool :=
  forallb (λ p, match p_grad p with
                | Some g => match grad_check (p_data p) g with
                            | Ok _ => true
                            | Raise _ => false
                            end
                | None => true
                end) ps.

(** Every tensor of the module lives on [dev]. *)
Definition module_on (dev : Device) (m : NNModule) : bool :=
  forallb (λ p, bool_decide (t_device (p_data p) = dev)) (m_params m)
  && grads_on dev (m_params m)
  && forallb (λ nt, bool_decide (t_device nt.2 = dev)) (m_buffers m).

(** What [compute_actions] computes, written over the runtime alone: one
    forward pass with the gradient mode off, a distribution over the
    logits, one sample, and the contents of the results. *)
Definition compute_actions_result (w : World) (obs_batch : list Array)
    (state_batches : option (list Array))
  : Result (Array * list Array * gmap string Stat) :=
  let ob := to (device (self w)) (tensor_float (from_numpy (np_array obs_batch))) in
  result_bind (model_forward false (_model (self w)) ob state_batches)
    (λ '(logits, _, _, state),
  result_bind (action_dist_cls logits) (λ action_dist,
  result_bind (dist_sample action_dist (rng w)) (λ '(actions, _),
  Ok (t_data actions, map t_data state, ∅)))).

(** The statistics the base class returns. *)
Definition base_stats : gmap string (gmap string Stat) :=
  {[ LEARNER_STATS_KEY := ∅ ]}.

(** A call from [w] runs locked when it ends (normally or with an
    exception), the events it appended are a well-locked call, and the
    lock is free again afterwards. *)
Definition runs_locked {A} (op : M A) (w : World) : Prop :=
  ∃ r w' evs, op w = Some (r, w') ∧ trace w' = trace w ++ evs
    ∧ locked_call evs = true ∧ lock (self w') = false.

(** The device a call leaves the policy on is the one it found. *)
Definition keeps_device {A} (op : M A) : Prop :=
  ∀ w r w', op w = Some (r, w') → device (self w') = device (self w).

(** A call leaves the optimizer object as it found it. *)
Definition keeps_optimizer {A} (op : M A) : Prop :=
  ∀ w r w', op w = Some (r, w') → _optimizer (self w') = _optimizer (self w).


End Embedding.

(** ** A small concrete runtime

    Arrays are integers; the model adds its parameters to the observation,
    the loss is the batch's ["obs"] field, autograd accumulates
    [loss * parameter] into each gradient, and the optimizer is plain
    gradient descent.  The initial recurrent state is the module's buffer
    list, so it lives wherever the module was moved.  A negative array
    stands for a gradient of the wrong shape: the setter refuses it. *)
Module Demo.

Definition types : TorchTypes :=
  {| Array := Z; Features := unit; Dist := Device * Z; LossOut := Z;
     Optimizer := Z * nat; Rng := Z; Space := unit; CfgVal := Z; Stat := Z |}.
#[local] Existing Instance types.

Definition forward (ge : bool) (m : NNModule) (ob : Tensor)
    (state_batches : option (list Array)) : Result ModelOut :=
  if (t_data ob <? 0)%Z then Raise (ValueError "negative observation")
  else
    let logits := mkTensor (t_device ob)
                    (foldr (λ p acc, t_data (p_data p) + acc)%Z (t_data ob) (m_params m)) in
    let state := map (λ a, mkTensor (t_device ob) a) (default [] state_batches) in
    Ok (logits, (), ob, state).

Definition loss (ge : bool) (s : TorchPolicyGraph) (bt : UsageTrackingDict)
  : Result LossOut :=
  match utd_getitem bt "obs" with
  | Some (t, _) => Ok (t_data t)
  | None => Raise (KeyError "obs")
  end.

Definition autograd (l : LossOut) (ps : list Param) : Result unit * list Param :=
  (Ok (),
   map (λ p, set_grad p (Some (mkTensor (t_device (p_data p))
            (l * t_data (p_data p) + from_option t_data 0 (p_grad p))%Z))) ps).

Definition zero_grad (o : Optimizer) (ps : list Param) : list Param :=
  map (λ p, set_grad p ((λ g, mkTensor (t_device g) 0%Z) <$> p_grad p)) ps.

Definition step (o : Optimizer) (ps : list Param)
  : Result unit * (Optimizer * list Param) :=
  (Ok (),
   ((o.1, S o.2),
    map (λ p, match p_grad p with
              | Some g => set_data p (mkTensor (t_device (p_data p))
                                        (t_data (p_data p) - o.1 * t_data g)%Z)
              | None => p
              end) ps)).

Definition Adam (ps : list Param) (lr : option CfgVal) : Result Optimizer :=
  match ps with
  | [] => Raise (ValueError "optimizer got an empty parameter list")
  | _ => Ok (default 1%Z lr, 0)
  end.

Definition runtime : TorchRuntime :=
  {| np_array := foldr Z.add 0%Z;
     tensor_float := λ t, t;
     model_forward := forward;
     model_state_init := λ m, map snd (m_buffers m);
     loss_fn := loss;
     backward := autograd;
     action_dist_cls := λ logits, Ok (t_device logits, t_data logits);
     dist_sample := λ d r, Ok (mkTensor d.1 (d.2 + r)%Z, (r + 1)%Z);
     optim_zero_grad := zero_grad;
     optim_step := step;
     grad_check := λ t g,
       if (t_data g <? 0)%Z
       then Raise (RuntimeError "assigned grad has data of a different size")
       else Ok ();
     cuda_init := Ok ();
     torch_optim_Adam := Adam;
     LEARNER_STATS_KEY := "learner_stats" |}.
#[local] Existing Instance runtime.

Definition net : NNModule :=
  {| m_params := [mkParam "w" (mkTensor Cpu 3%Z) None;
                  mkParam "b" (mkTensor Cpu 5%Z) None];
     m_buffers := [("h0", mkTensor Cpu 0%Z)] |}.

Definition cpu_env : gmap string string := ∅.
Definition gpu_env : gmap string string := {[ "CUDA_VISIBLE_DEVICES" := "0" ]}.

Definition policy (environ : gmap string string) : Result TorchPolicyGraph :=
  __init__ environ (Some {[ "lr" := 2%Z ]}) () () net.

Definition batch : gmap string Array := {[ "obs" := 4%Z ]}.

(** The policy [__init__] builds from [net] on either device, in a world
    with the gradient mode on and the lock free. *)
Definition policy_on (dev : Device) : TorchPolicyGraph :=
  {| observation_space := (); action_space := (); lock := false;
     device := dev; _model := module_to dev net; _optimizer := (2%Z, 0);
     config := Some {[ "lr" := 2%Z ]} |}.

Definition world_on (dev : Device) : World :=
  {| self := policy_on dev; grad_enabled := true; rng := 7%Z; trace := [] |}.

(** The accelerator world after one [compute_gradients] on [batch]: both
    parameters carry a gradient. *)
Definition world_trained : World :=
  {| self :=
       {| observation_space := (); action_space := (); lock := false;
          device := Cuda;
          _model :=
            {| m_params :=
                 [mkParam "w" (mkTensor Cuda 3%Z) (Some (mkTensor Cuda 12%Z));
                  mkParam "b" (mkTensor Cuda 5%Z) (Some (mkTensor Cuda 20%Z))];
               m_buffers := [("h0", mkTensor Cuda 0%Z)] |};
          _optimizer := (2%Z, 0); config := Some {[ "lr" := 2%Z ]} |};
     grad_enabled := true; rng := 7%Z; trace := [] |}.

(** The same world while another caller holds the lock. *)
Definition world_held : World := with_self (set_lock true) (world_on Cuda).

(** A snapshot for [net] from another replica. *)
Definition other_weights : gmap string Tensor :=
  {[ "w" := mkTensor Cpu 10%Z; "b" := mkTensor Cpu 20%Z;
     "h0" := mkTensor Cpu 1%Z ]}.

End Demo.

(** * Properties *)

(** Unfolds the monad's plumbing. *)
Ltac run_M :=
  unfold mbind, mret, M_bind, M_ret, bind, ret, lift, gets, modify, finally.

(** Unfolds a method down to the runtime's calls. *)
Ltac run_method :=
  unfold compute_actions, learn_on_batch, compute_gradients, apply_gradients,
    get_weights, set_weights, get_initial_state, _lazy_tensor_dict,
    with_lock, no_grad, acquire, release, model_parameters, model,
    put_parameters, call_loss, loss_backward, optimizer_zero_grad,
    optimizer_step, sample, extra_grad_process, extra_action_out,
    extra_grad_info;
  run_M; simpl.

(** Closes [keeps_device] for a method by running every path. *)
Ltac keeps_device_tac :=
  let w := fresh "w" in let r := fresh "r" in let w' := fresh "w'" in
  intros w r w';
  destruct w as [[? ? [] ? ? ? ?] ? ? ?]; run_method; try done;
  repeat (case_match; simplify_eq/=; try done);
  intros; simplify_eq/=; done.

(** Closes [runs_locked] for a method by running every path. *)
Ltac runs_locked_tac :=
  match goal with
  | w : World |- _ =>
      destruct w as [[? ? ? ? ? ? ?] ? ? ?]; simpl in *; subst
  end;
  unfold runs_locked; run_method;
  repeat (case_match; simplify_eq/=);
  (do 3 eexists; split; [reflexivity|]; simpl; rewrite <- ?app_assoc;
   split; [reflexivity|split; reflexivity]).

(** Closes [keeps_optimizer] for a method by running every path. *)
Ltac keeps_optimizer_tac :=
  let w := fresh "w" in let r := fresh "r" in let w' := fresh "w'" in
  intros w r w';
  destruct w as [[? ? [] ? ? ? ?] ? ? ?]; run_method; try done;
  repeat (case_match; simplify_eq/=; try done);
  intros; simplify_eq/=; done.

Section Properties.
Context `{RT : TorchRuntime}.

(** ** Tensors and conversions *)

Lemma numpy_cpu (t : Tensor) : numpy (cpu t) = Ok (t_data t).
Proof. reflexivity. Qed.

Lemma result_map_numpy_cpu (ts : list Tensor) :
  result_map (λ h, numpy (cpu h)) ts = Ok (map t_data ts).
Proof.
  induction ts as [|t ts IH]; simpl; [done|]. by rewrite IH.
Qed.

Lemma result_map_grad_to_numpy (ps : list Param) :
  result_map grad_to_numpy ps = Ok (map (λ p, t_data <$> p_grad p) ps).
Proof.
  induction ps as [|p ps IH]; simpl; [done|].
  rewrite IH. unfold grad_to_numpy. by destruct (p_grad p).
Qed.

Lemma copy_cpu_self (t : Tensor) : copy_ t (cpu t) = t.
Proof. by destruct t. Qed.

Lemma to_from_numpy_data (t : Tensor) :
  to (t_device t) (from_numpy (t_data t)) = t.
Proof. by destruct t. Qed.

(** ** The assignment loop of [apply_gradients] *)

Lemma lookup_map {A B} (f : A → B) (l : list A) (i : nat) :
  map f l !! i = f <$> l !! i.
Proof.
  revert i. induction l as [|x l IH]; intros [|i]; simpl; try done.
Qed.

Lemma assign_grads_length dev gs (ps : list Param) :
  length (assign_grads dev gs ps).2 = length ps.
Proof.
  revert ps. induction gs as [|g gs IH]; intros [|p ps]; simpl; auto.
  destruct g as [a|]; [destruct (grad_check _ _)|]; simpl; auto.
Qed.

Lemma assign_grads_lookup_None dev gs (ps : list Param) i p :
  gs !! i = Some None → ps !! i = Some p →
  (assign_grads dev gs ps).2 !! i = Some p.
Proof.
  revert ps i. induction gs as [|g gs IH]; intros [|q ps] [|i]; simpl; try done.
  - by intros [= ->] [= ->].
  - intros Hg Hp.
    destruct g as [a|]; [destruct (grad_check _ _)|]; simpl; auto.
Qed.

Lemma assign_grads_lookup_Some dev gs (ps : list Param) i a p :
  (assign_grads dev gs ps).1 = Ok () →
  gs !! i = Some (Some a) → ps !! i = Some p →
  (assign_grads dev gs ps).2 !! i
  = Some (set_grad p (Some (to dev (from_numpy a)))).
Proof.
  revert ps i. induction gs as [|g gs IH]; intros [|q ps] [|i]; simpl; try done.
  - intros Hok [= ->] [= ->]. by destruct (grad_check _ _).
  - intros Hok Hg Hp.
    destruct g as [b|]; [destruct (grad_check _ _)|]; simpl in *; auto.
    done.
Qed.

Lemma assign_grads_lookup_ge dev gs (ps : list Param) i :
  length gs ≤ i → (assign_grads dev gs ps).2 !! i = ps !! i.
Proof.
  revert ps i. induction gs as [|g gs IH]; intros [|q ps] i Hi; simpl in *;
    try done.
  destruct i as [|i]; [lia|].
  destruct g as [a|]; [destruct (grad_check _ _)|]; simpl; try done;
    apply IH; lia.
Qed.

Lemma assign_grads_absent dev n (ps : list Param) :
  assign_grads dev (replicate n None) ps = (Ok (), ps).
Proof.
  revert ps. induction n as [|n IH]; intros [|p ps]; simpl; try done.
  by rewrite IH.
Qed.

(** The outcome of the loop depends on the parameters it pairs only. *)
Lemma assign_grads_prefix dev gs (ps : list Param) :
  (assign_grads dev gs ps).1 = (assign_grads dev gs (take (length gs) ps)).1.
Proof.
  revert ps. induction gs as [|g gs IH]; intros [|p ps]; simpl; try done.
  destruct g as [a|]; [destruct (grad_check _ _)|]; simpl; auto.
Qed.

Lemma assign_grads_own dev (ps : list Param) :
  grads_on dev ps = true → grads_accepted ps = true →
  assign_grads dev (map (λ p, t_data <$> p_grad p) ps) ps = (Ok (), ps).
Proof.
  induction ps as [|p ps IH]; simpl; [done|].
  intros [Hp Hps]%andb_prop [Ha Has]%andb_prop. rewrite IH by done.
  destruct p as [n d [g|]]; simpl in *; [|done].
  apply bool_decide_eq_true in Hp. subst dev.
  rewrite to_from_numpy_data. by destruct (grad_check d g).
Qed.

(** [apply_gradients] when the loop completes: one step over the assigned
    list. *)
Lemma apply_gradients_run (w : World) gradients :
  lock (self w) = false →
  let assigned :=
    assign_grads (device (self w)) gradients (m_params (_model (self w))) in
  let out := optim_step (_optimizer (self w)) assigned.2 in
  assigned.1 = Ok () →
  ∃ w', apply_gradients gradients w = Some (out.1, w')
    ∧ self w' = set_optimizer out.2.1
                  (set_model (set_params (_model (self w)) out.2.2) (self w))
    ∧ grad_enabled w' = grad_enabled w ∧ rng w' = rng w
    ∧ trace w' = trace w ++ [EvAcquire; EvModel; EvOptimizer; EvRelease].
Proof.
  intros Hl. destruct w as [[os asp l dev m o cfg] ge r tr]. simpl in *. subst l.
  intros Hok. run_method. rewrite Hok. simpl.
  destruct (optim_step _ _) as [[|e] [o' ps']]; simpl;
    (eexists; split; [reflexivity|]; simpl; rewrite <- !app_assoc; done).
Qed.

(** [apply_gradients] when line 128 raises: the exception leaves the call,
    the lock is released, the step is not taken. *)
Lemma apply_gradients_run_raise (w : World) gradients e :
  lock (self w) = false →
  let assigned :=
    assign_grads (device (self w)) gradients (m_params (_model (self w))) in
  assigned.1 = Raise e →
  ∃ w', apply_gradients gradients w = Some (Raise e, w')
    ∧ self w' = set_model (set_params (_model (self w)) assigned.2) (self w)
    ∧ trace w' = trace w ++ [EvAcquire; EvModel; EvRelease].
Proof.
  intros Hl. destruct w as [[os asp l dev m o cfg] ge r tr]. simpl in *. subst l.
  intros Hraise. run_method. rewrite Hraise. simpl.
  eexists; split; [reflexivity|]; simpl; rewrite <- !app_assoc; done.
Qed.

(** ** State dict, construction, device *)

Lemma state_dict_keys (m : NNModule) :
  (map (λ p, (p_name p, p_data p)) (m_params m) ++ m_buffers m).*1 = module_names m.
Proof.
  unfold module_names. rewrite fmap_app. f_equal.
  induction (m_params m) as [|p ps IH]; simpl; [done|]. by rewrite <- IH.
Qed.

Lemma dom_state_dict (m : NNModule) :
  dom (state_dict m) = list_to_set (module_names m).
Proof. unfold state_dict. by rewrite dom_list_to_map_L, state_dict_keys. Qed.

Lemma state_dict_lookup_param (m : NNModule) (p : Param) :
  NoDup (module_names m) → p ∈ m_params m →
  state_dict m !! p_name p = Some (p_data p).
Proof.
  intros Hnd Hp. apply elem_of_list_to_map_1.
  - by rewrite state_dict_keys.
  - apply elem_of_app. left.
    apply (list_elem_of_fmap_2 (λ p, (p_name p, p_data p))). done.
Qed.

Lemma state_dict_lookup_buffer (m : NNModule) (n : string) (t : Tensor) :
  NoDup (module_names m) → (n, t) ∈ m_buffers m →
  state_dict m !! n = Some t.
Proof.
  intros Hnd Hp. apply elem_of_list_to_map_1.
  - by rewrite state_dict_keys.
  - apply elem_of_app. by right.
Qed.

Lemma map_id_on {A} (f : A → A) (l : list A) :
  (∀ x, x ∈ l → f x = x) → map f l = l.
Proof.
  induction l as [|x l IH]; simpl; [done|]. intros H.
  rewrite H by apply list_elem_of_here. f_equal. apply IH.
  intros y Hy. apply H. by apply list_elem_of_further.
Qed.

Lemma load_own_state_dict (m : NNModule) :
  NoDup (module_names m) →
  load_state_dict m (cpu <$> state_dict m) = (Ok (), m).
Proof.
  intros Hnd. unfold load_state_dict. f_equal.
  - rewrite dom_fmap_L, dom_state_dict. by rewrite decide_True.
  - destruct m as [ps bs]. simpl. f_equal.
    + apply map_id_on. intros p Hp. unfold load_tensor.
      rewrite lookup_fmap, (state_dict_lookup_param (mkModule ps bs)) by done.
      simpl. rewrite copy_cpu_self. by destruct p.
    + apply map_id_on. intros [n t] Hp. unfold load_tensor. simpl.
      rewrite lookup_fmap, (state_dict_lookup_buffer (mkModule ps bs) n t) by done.
      simpl. by rewrite copy_cpu_self.
Qed.

(** C4: with the lock free and the module's names distinct,
    [get_weights] returns a snapshot, [set_weights] of that snapshot
    returns normally, and the policy object afterwards (every parameter's
    contents, device and gradient, every buffer, the optimizer) equals the
    one before. *)
Theorem set_weights_get_weights (w : World) :
  lock (self w) = false →
  NoDup (module_names (_model (self w))) →
  ∃ snapshot w1 w2,
    get_weights w = Some (Ok snapshot, w1)
    ∧ set_weights snapshot w1 = Some (Ok (), w2)
    ∧ self w2 = self w.
Proof.
  intros Hl Hnd.
  destruct w as [[os asp l dev m o cfg] ge r tr]. simpl in *. subst l.
  pose proof (load_own_state_dict m Hnd) as Hload.
  run_method. do 3 eexists. split; [reflexivity|]. simpl.
  unfold load_state_dict in Hload. injection Hload as H1 H2.
  rewrite H1, H2. done.
Qed.

Lemma cuda_visible_iff (environ : gmap string string) :
  cuda_visible environ = true
  ↔ ∃ v, environ !! "CUDA_VISIBLE_DEVICES" = Some v ∧ v ≠ "".
Proof.
  unfold cuda_visible. destruct (environ !! _) as [v|]; split.
  - intros H. exists v. split; [done|]. intros ->. done.
  - intros (v' & [= <-] & Hv). apply negb_true_iff. by apply String.eqb_neq.
  - done.
  - by intros (v & ? & _).
Qed.

Lemma init_device environ cfg os asp (net : NNModule) s :
  __init__ environ cfg os asp net = Ok s →
  device s = if cuda_visible environ then Cuda else Cpu.
Proof.
  unfold __init__.
  destruct (cuda_visible environ); [destruct cuda_init; simpl; [|done]|simpl];
    (destruct (optimizer _ _); simpl; [|done]; by intros [= <-]).
Qed.

Lemma compute_actions_keeps_device obs sb : keeps_device (compute_actions obs sb).
Proof. keeps_device_tac. Qed.
Lemma learn_on_batch_keeps_device b : keeps_device (learn_on_batch b).
Proof. keeps_device_tac. Qed.
Lemma compute_gradients_keeps_device b : keeps_device (compute_gradients b).
Proof. keeps_device_tac. Qed.
Lemma apply_gradients_keeps_device g : keeps_device (apply_gradients g).
Proof. keeps_device_tac. Qed.
Lemma get_weights_keeps_device : keeps_device get_weights.
Proof. keeps_device_tac. Qed.
Lemma set_weights_keeps_device ws : keeps_device (set_weights ws).
Proof. keeps_device_tac. Qed.
Lemma get_initial_state_keeps_device : keeps_device get_initial_state.
Proof. keeps_device_tac. Qed.

(** ** The claims *)

(** C1: from the same starting state, [compute_gradients] followed by
    [apply_gradients] on the gradient set it returned ends with the same
    policy object (parameters, gradients, buffers, optimizer) as
    [learn_on_batch] on that batch, and raises exactly when it does; when
    it returns, [learn_on_batch] returns the statistics [compute_gradients]
    returned.  The gradients left on the parameters are assumed to live on
    the policy's device, as the tensor library places them, and to be
    gradients the setter of line 128 accepts for their own parameter. *)
Theorem learn_on_batch_is_compute_then_apply (w w1 : World) batch grads info :
  lock (self w) = false →
  compute_gradients batch w = Some (Ok (grads, info), w1) →
  grads_on (device (self w1)) (m_params (_model (self w1))) = true →
  grads_accepted (m_params (_model (self w1))) = true →
  ∃ r w2 w',
    apply_gradients grads w1 = Some (r, w2)
    ∧ learn_on_batch batch w
      = Some (match r with Ok _ => Ok info | Raise e => Raise e end, w')
    ∧ self w' = self w2.
Proof.
  intros Hl Hcg Hon Hacc.
  destruct w as [[os asp l dev m o cfg] ge r tr]. simpl in *. subst l.
  revert Hcg. run_method.
  destruct (loss_fn _ _ _) as [lo|e]; simpl; [|done].
  destruct (backward _ _) as [[[]|e] ps1] eqn:Hb; simpl; [|done].
  rewrite result_map_grad_to_numpy. simpl.
  intros [= <- <- <-]. simpl in *.
  rewrite (assign_grads_own dev ps1 Hon Hacc). simpl.
  destruct (optim_step o ps1) as [[[]|e] [o' ps']]; simpl;
    (do 3 eexists; split; [reflexivity|split; [reflexivity|done]]).
Qed.

(** C3: in [apply_gradients], a parameter whose entry in the gradient set
    is [None] is left exactly as it was (its gradient included) by the
    loop, on every path; absent entries raise nothing (a gradient set of
    [None]s always completes).  When the loop completes, the optimizer
    step runs over the whole parameter list: the call's outcome, the
    optimizer and the parameters afterwards are those of one step over the
    list after the assignments, and with a step that leaves gradients
    alone the parameter's gradient after the call is the one it had
    before.  When line 128 raises on another entry, that exception leaves
    the call with the step not taken. *)
Theorem apply_gradients_absent_entry (w : World) gradients i p :
  lock (self w) = false →
  gradients !! i = Some None →
  m_params (_model (self w)) !! i = Some p →
  let params := m_params (_model (self w)) in
  let assigned := assign_grads (device (self w)) gradients params in
  let out := optim_step (_optimizer (self w)) assigned.2 in
  assigned.2 !! i = Some p
  ∧ assign_grads (device (self w)) (replicate (length gradients) None) params
    = (Ok (), params)
  ∧ match assigned.1 with
    | Ok _ =>
        ∃ w', apply_gradients gradients w = Some (out.1, w')
          ∧ _optimizer (self w') = out.2.1
          ∧ m_params (_model (self w')) = out.2.2
          ∧ (map p_grad out.2.2 = map p_grad assigned.2 →
             ∃ p', m_params (_model (self w')) !! i = Some p'
                   ∧ p_grad p' = p_grad p)
    | Raise e =>
        ∃ w', apply_gradients gradients w = Some (Raise e, w')
          ∧ _optimizer (self w') = _optimizer (self w)
          ∧ m_params (_model (self w')) = assigned.2
    end.
Proof.
  intros Hl Hg Hp params assigned out.
  pose proof (assign_grads_lookup_None (device (self w)) _ _ _ _ Hg Hp) as Hi.
  split; [exact Hi|]. split; [apply assign_grads_absent|].
  destruct (assigned.1) as [[]|e] eqn:Hout.
  - destruct (apply_gradients_run w gradients Hl Hout) as (w' & Hrun & Hself & _).
    exists w'. split; [exact Hrun|]. rewrite Hself. simpl.
    split; [done|]. split; [done|]. intros Hstep.
    assert (map p_grad out.2.2 !! i = Some (p_grad p)) as Hi'.
    { rewrite Hstep, lookup_map. unfold assigned, params.
      by rewrite Hi. }
    rewrite lookup_map in Hi'.
    destruct (out.2.2 !! i) as [p'|] eqn:Hp'; [|done].
    injection Hi' as Hi'. exists p'. split; [exact Hp'|exact Hi'].
  - destruct (apply_gradients_run_raise w gradients e Hl Hout)
      as (w' & Hrun & Hself & _).
    exists w'. split; [exact Hrun|]. by rewrite Hself.
Qed.

(** C10: when the gradient sequence is shorter than the parameter list,
    [apply_gradients] pairs it with the leading parameters and the
    shortness raises nothing: every parameter past the end of the sequence
    is left as it was, the list keeps its length, and the loop's outcome is
    that of the same sequence over the paired leading parameters alone.
    When the loop completes, a parameter paired with an array has it as its
    gradient, on the policy's device, the step runs over the whole list,
    and the call's outcome is the step's ([Ok ()] carries no value).  When
    line 128 raises on a paired entry, that exception leaves the call. *)
Theorem apply_gradients_short_sequence (w : World) gradients :
  lock (self w) = false →
  length gradients < length (m_params (_model (self w))) →
  let params := m_params (_model (self w)) in
  let assigned := assign_grads (device (self w)) gradients params in
  let out := optim_step (_optimizer (self w)) assigned.2 in
  (∀ i, length gradients ≤ i → assigned.2 !! i = params !! i)
  ∧ length assigned.2 = length params
  ∧ assigned.1
    = (assign_grads (device (self w)) gradients
         (take (length gradients) params)).1
  ∧ match assigned.1 with
    | Ok _ =>
        (∀ i a p, gradients !! i = Some (Some a) → params !! i = Some p →
           assigned.2 !! i
           = Some (set_grad p (Some (to (device (self w)) (from_numpy a)))))
        ∧ ∃ w', apply_gradients gradients w = Some (out.1, w')
            ∧ _optimizer (self w') = out.2.1
            ∧ m_params (_model (self w')) = out.2.2
    | Raise e =>
        ∃ w', apply_gradients gradients w = Some (Raise e, w')
          ∧ _optimizer (self w') = _optimizer (self w)
          ∧ m_params (_model (self w')) = assigned.2
    end.
Proof.
  intros Hl Hlen params assigned out.
  split; [intros i; apply assign_grads_lookup_ge|].
  split; [apply assign_grads_length|].
  split; [apply assign_grads_prefix|].
  destruct (assigned.1) as [[]|e] eqn:Hout.
  - split; [intros i a p; by apply assign_grads_lookup_Some|].
    destruct (apply_gradients_run w gradients Hl Hout) as (w' & Hrun & Hself & _).
    exists w'. split; [exact Hrun|]. by rewrite Hself.
  - destruct (apply_gradients_run_raise w gradients e Hl Hout)
      as (w' & Hrun & Hself & _).
    exists w'. split; [exact Hrun|]. by rewrite Hself.
Qed.

(** C6: called with the lock free, when the loss and backpropagation
    succeed, [compute_gradients] returns, on the host and on the
    accelerator alike, and the gradient set it returns has one entry per
    model parameter, in the order of the parameter list as the call leaves
    it: the host contents of the parameter's gradient where it has one,
    [None] where it has none. *)
Theorem compute_gradients_gradient_set (w : World) batch loss_out ps1 :
  lock (self w) = false →
  loss_fn (grad_enabled w) (set_lock true (self w))
    (set_get_interceptor (UsageTrackingDict_new batch)
       (λ arr, to (device (self w)) (from_numpy arr))) = Ok loss_out →
  backward loss_out
    (optim_zero_grad (_optimizer (self w)) (m_params (_model (self w))))
  = (Ok (), ps1) →
  ∃ grads w1,
    compute_gradients batch w = Some (Ok (grads, base_stats), w1)
    ∧ m_params (_model (self w1)) = ps1
    ∧ length grads = length (m_params (_model (self w1)))
    ∧ ∀ i p, m_params (_model (self w1)) !! i = Some p →
        grads !! i = Some (t_data <$> p_grad p).
Proof.
  intros Hl Hloss Hback.
  destruct w as [[os asp l dev m o cfg] ge r tr]. simpl in *. subst l.
  run_method. rewrite Hloss. simpl. rewrite Hback. simpl.
  rewrite result_map_grad_to_numpy. simpl.
  unfold base_stats, dict_update. rewrite (left_id_L ∅ (∪)).
  eexists _, _. split; [reflexivity|]. simpl. split; [done|].
  split; [by rewrite length_map|].
  intros i p Hp. by rewrite lookup_map, Hp.
Qed.

(** C7: [optimizer] builds Adam over the model's parameters: with the
    config's ["lr"] when a config is attached, and with no learning rate
    argument (Adam's default), raising nothing of its own, when none is. *)
Theorem optimizer_default_adam (m : NNModule) (c : gmap string CfgVal) (lr : CfgVal) :
  c !! "lr" = Some lr →
  optimizer (Some c) m = torch_optim_Adam (m_params m) (Some lr)
  ∧ optimizer None m = torch_optim_Adam (m_params m) None.
Proof. intros Hlr. unfold optimizer. by rewrite Hlr. Qed.

Lemma compute_actions_run (w : World) obs_batch state_batches :
  lock (self w) = false →
  ∃ w', compute_actions obs_batch state_batches w
        = Some (compute_actions_result w obs_batch state_batches, w')
    ∧ self w' = self w ∧ grad_enabled w' = grad_enabled w.
Proof.
  intros Hl. destruct w as [[os asp l dev m o cfg] ge r tr]. simpl in *. subst l.
  unfold compute_actions_result. run_method.
  destruct (model_forward _ _ _ _) as [[[[logits f] vf] st]|e]; simpl;
    [|by eexists].
  destruct (action_dist_cls logits) as [d|e]; simpl; [|by eexists].
  destruct (dist_sample d r) as [[a r']|e]; simpl; [|by eexists].
  rewrite result_map_numpy_cpu. simpl. by eexists.
Qed.

(** C5: called with the lock free, [compute_actions] returns (or raises)
    what [compute_actions_result] computes: the model is run once with the
    gradient mode off, the distribution is built over its logits and
    sampled once, and the actions and recurrent state returned are host
    arrays, the contents of the sampled and returned tensors.  The policy
    object (so every model parameter) and the gradient mode are afterwards
    what they were before, on every path. *)
Theorem compute_actions_inference (w : World) obs_batch state_batches :
  lock (self w) = false →
  ∃ w', compute_actions obs_batch state_batches w
        = Some (compute_actions_result w obs_batch state_batches, w')
    ∧ self w' = self w ∧ grad_enabled w' = grad_enabled w.
Proof. apply compute_actions_run. Qed.

(** X1: called with the lock free, each of [compute_actions],
    [learn_on_batch], [compute_gradients], [apply_gradients], [get_weights]
    and [set_weights] ends, on the normal and on the exceptional path alike;
    the events it appends start with the acquisition of the lock, end with
    its release, and every use of the model or the optimizer lies in
    between; the lock is free afterwards. *)
Theorem six_operations_run_locked (w : World) obs_batch state_batches batch
    gradients weights :
  lock (self w) = false →
  runs_locked (compute_actions obs_batch state_batches) w
  ∧ runs_locked (learn_on_batch batch) w
  ∧ runs_locked (compute_gradients batch) w
  ∧ runs_locked (apply_gradients gradients) w
  ∧ runs_locked get_weights w
  ∧ runs_locked (set_weights weights) w.
Proof.
  intros Hl. repeat split; runs_locked_tac.
Qed.

(** C8: [__init__] places the policy on the accelerator exactly when
    [CUDA_VISIBLE_DEVICES] is set to a non-empty string, and on the host
    otherwise; each of the seven public operations, which take no
    environment, leaves the device as it found it, on every path. *)
Theorem device_decided_at_construction environ cfg os asp (net : NNModule)
    obs_batch state_batches batch gradients weights :
  (cuda_visible environ = true
   ↔ ∃ v, environ !! "CUDA_VISIBLE_DEVICES" = Some v ∧ v ≠ "")
  ∧ (∀ s, __init__ environ cfg os asp net = Ok s →
          device s = if cuda_visible environ then Cuda else Cpu)
  ∧ keeps_device (compute_actions obs_batch state_batches)
  ∧ keeps_device (learn_on_batch batch)
  ∧ keeps_device (compute_gradients batch)
  ∧ keeps_device (apply_gradients gradients)
  ∧ keeps_device get_weights
  ∧ keeps_device (set_weights weights)
  ∧ keeps_device get_initial_state.
Proof.
  split; [apply cuda_visible_iff|].
  split; [intros s; apply init_device|].
  repeat split.
  - apply compute_actions_keeps_device.
  - apply learn_on_batch_keeps_device.
  - apply compute_gradients_keeps_device.
  - apply apply_gradients_keeps_device.
  - apply get_weights_keeps_device.
  - apply set_weights_keeps_device.
  - apply get_initial_state_keeps_device.
Qed.


(** ** Further properties of the methods *)

(** *** [get_initial_state], blocking, failures of the loss *)

Lemma result_map_numpy_accelerator (ts : list Tensor) :
  Exists (λ t, t_device t = Cuda) ts →
  result_map numpy ts = Raise (TypeError "can't convert CUDA tensor to numpy").
Proof.
  induction 1 as [t ts Ht|t ts _ IH]; simpl.
  - unfold numpy. by rewrite Ht.
  - unfold numpy at 1. destruct (t_device t); simpl; [|done]. by rewrite IH.
Qed.

(** X2: when some tensor of the declared initial state lives on the
    accelerator, [get_initial_state] raises [TypeError]: line 143 converts
    without moving to the host first. *)
Theorem get_initial_state_accelerator_raises (w : World) :
  Exists (λ t, t_device t = Cuda) (model_state_init (_model (self w))) →
  get_initial_state w
  = Some (Raise (TypeError "can't convert CUDA tensor to numpy"), log EvModel w).
Proof.
  intros Hacc. run_method. by rewrite result_map_numpy_accelerator.
Qed.

(** X3: while the lock is held, each of the six locked operations blocks
    (the lock is not reentrant); [get_initial_state] does not. *)
Theorem held_lock_blocks (w : World) obs_batch state_batches batch gradients
    weights :
  lock (self w) = true →
  compute_actions obs_batch state_batches w = None
  ∧ learn_on_batch batch w = None
  ∧ compute_gradients batch w = None
  ∧ apply_gradients gradients w = None
  ∧ get_weights w = None
  ∧ set_weights weights w = None
  ∧ get_initial_state w ≠ None.
Proof.
  intros Hl. run_method. rewrite Hl. done.
Qed.

(** X4: when the loss raises, [learn_on_batch] and [compute_gradients]
    raise the same exception, with the lock released and the policy object
    as it was: no gradient was zeroed and no step was taken. *)
Theorem loss_failure_changes_nothing (w : World) batch e :
  lock (self w) = false →
  loss_fn (grad_enabled w) (set_lock true (self w))
    (set_get_interceptor (UsageTrackingDict_new batch)
       (λ arr, to (device (self w)) (from_numpy arr))) = Raise e →
  (∃ w', learn_on_batch batch w = Some (Raise e, w') ∧ self w' = self w)
  ∧ (∃ w', compute_gradients batch w = Some (Raise e, w') ∧ self w' = self w).
Proof.
  intros Hl He.
  destruct w as [[os asp l dev m o cfg] ge r tr]. simpl in *. subst l.
  run_method. rewrite He. simpl. split; by eexists.
Qed.

(** X5: when the runtime's calls succeed, [learn_on_batch] returns
    [{LEARNER_STATS_KEY: {}}] and leaves the parameters and optimizer of
    one step over the gradients that backpropagation left on the zeroed
    parameters: loss, zero_grad, backward, step, in that order, all under
    the lock. *)
Theorem learn_on_batch_composes (w : World) batch loss_out ps1 o' ps2 :
  lock (self w) = false →
  loss_fn (grad_enabled w) (set_lock true (self w))
    (set_get_interceptor (UsageTrackingDict_new batch)
       (λ arr, to (device (self w)) (from_numpy arr))) = Ok loss_out →
  backward loss_out
    (optim_zero_grad (_optimizer (self w)) (m_params (_model (self w))))
  = (Ok (), ps1) →
  optim_step (_optimizer (self w)) ps1 = (Ok (), (o', ps2)) →
  ∃ w', learn_on_batch batch w = Some (Ok base_stats, w')
    ∧ self w' = set_optimizer o' (set_model (set_params (_model (self w)) ps2) (self w))
    ∧ trace w' = trace w ++ [EvAcquire; EvModel; EvOptimizer; EvModel;
                             EvOptimizer; EvRelease].
Proof.
  intros Hl Hloss Hback Hstep.
  destruct w as [[os asp l dev m o cfg] ge r tr]. simpl in *. subst l.
  run_method. rewrite Hloss. simpl. rewrite Hback. simpl. rewrite Hstep. simpl.
  unfold base_stats, dict_update. rewrite (left_id_L ∅ (∪)).
  eexists. split; [reflexivity|]. split; [reflexivity|].
  simpl. by rewrite <- !app_assoc.
Qed.

(** *** Weight snapshots *)

(** X7: [get_weights] returns one host tensor per parameter and buffer
    name and leaves the policy object as it was. *)
Theorem get_weights_host_snapshot (w : World) :
  lock (self w) = false →
  ∃ snapshot w',
    get_weights w = Some (Ok snapshot, w')
    ∧ self w' = self w
    ∧ dom snapshot = list_to_set (module_names (_model (self w)))
    ∧ ∀ k t, snapshot !! k = Some t → t_device t = Cpu.
Proof.
  intros Hl.
  destruct w as [[os asp l dev m o cfg] ge r tr]. simpl in *. subst l.
  run_method. eexists _, _. split; [reflexivity|]. split; [done|]. split.
  - by rewrite dom_fmap_L, dom_state_dict.
  - intros k t. rewrite lookup_fmap. destruct (state_dict m !! k); simpl; [|done].
    by intros [= <-].
Qed.

(** X8: a snapshot whose keys are not exactly the module's names makes
    [set_weights] raise the loader's [RuntimeError]; the lock is released
    and the optimizer and the module's names are untouched. *)
Theorem set_weights_failure_releases (w : World) (weights : gmap string Tensor) :
  lock (self w) = false →
  dom weights ≠ list_to_set (module_names (_model (self w))) →
  ∃ w', set_weights weights w
        = Some (Raise (RuntimeError "Error(s) in loading state_dict"), w')
    ∧ lock (self w') = false
    ∧ _optimizer (self w') = _optimizer (self w)
    ∧ module_names (_model (self w')) = module_names (_model (self w)).
Proof.
  intros Hl Hdom.
  destruct w as [[os asp l dev m o cfg] ge r tr]. simpl in *. subst l.
  run_method. rewrite decide_False by done. simpl.
  eexists. split; [reflexivity|]. simpl. repeat split.
  unfold module_names. simpl. by rewrite !map_map.
Qed.

(** X9: whatever the snapshot and the outcome, [set_weights] keeps the
    module's names, each parameter's device and gradient, the optimizer and
    the policy's device: only tensor contents can change. *)
Theorem set_weights_rewrites_contents_only (w w' : World) weights r :
  set_weights weights w = Some (r, w') →
  module_names (_model (self w')) = module_names (_model (self w))
  ∧ map (λ p, t_device (p_data p)) (m_params (_model (self w')))
    = map (λ p, t_device (p_data p)) (m_params (_model (self w)))
  ∧ map p_grad (m_params (_model (self w')))
    = map p_grad (m_params (_model (self w)))
  ∧ _optimizer (self w') = _optimizer (self w)
  ∧ device (self w') = device (self w).
Proof.
  destruct w as [[os asp [] dev m o cfg] ge rg tr]; run_method; [done|].
  case_match; simplify_eq/=; intros; simplify_eq/=.
  - repeat split.
    + unfold module_names. simpl. by rewrite !map_map.
    + rewrite map_map. apply map_ext. intros p. unfold load_tensor.
      by destruct (weights !! p_name p).
    + rewrite map_map. by apply map_ext.
  - repeat split.
    + unfold module_names. simpl. by rewrite !map_map.
    + rewrite map_map. apply map_ext. intros p. unfold load_tensor.
      by destruct (weights !! p_name p).
    + rewrite map_map. by apply map_ext.
Qed.

(** *** Gradient assignment, construction, the optimizer *)

Lemma assign_grads_only_gradients_data dev gs (ps : list Param) :
  map p_data (assign_grads dev gs ps).2 = map p_data ps.
Proof.
  revert ps. induction gs as [|g gs IH]; intros [|p ps]; simpl; try done.
  destruct g as [a|]; [destruct (grad_check _ _)|]; simpl; by rewrite ?IH.
Qed.

Lemma assign_grads_surplus dev gs extra (ps : list Param) :
  length ps ≤ length gs →
  assign_grads dev (gs ++ extra) ps = assign_grads dev gs ps.
Proof.
  revert ps. induction gs as [|g gs IH]; intros [|p ps]; simpl; try done;
    try lia.
  - by destruct extra.
  - intros Hlen. rewrite IH by lia. done.
Qed.

(** X6: when line 128 raises for an entry, [apply_gradients] raises that
    exception with the lock released; the optimizer step is not taken (the
    optimizer is untouched and is never used), the parameters paired with
    the entries before keep their new gradients, and the module's names and
    parameter tensors are unchanged. *)
Theorem apply_gradients_raise_skips_step (w : World) gradients e :
  lock (self w) = false →
  (assign_grads (device (self w)) gradients (m_params (_model (self w)))).1
  = Raise e →
  ∃ w', apply_gradients gradients w = Some (Raise e, w')
    ∧ lock (self w') = false
    ∧ _optimizer (self w') = _optimizer (self w)
    ∧ m_params (_model (self w'))
      = (assign_grads (device (self w)) gradients (m_params (_model (self w)))).2
    ∧ map p_data (m_params (_model (self w')))
      = map p_data (m_params (_model (self w)))
    ∧ trace w' = trace w ++ [EvAcquire; EvModel; EvRelease].
Proof.
  intros Hl Hraise.
  destruct (apply_gradients_run_raise w gradients e Hl Hraise)
    as (w' & Hrun & Hself & Htr).
  exists w'. split; [exact Hrun|]. rewrite Hself. simpl.
  split; [done|]. split; [done|]. split; [done|]. split; [|exact Htr].
  apply assign_grads_only_gradients_data.
Qed.

(** X10: gradients past the end of the parameter list are ignored:
    [apply_gradients] with surplus entries behaves as without them. *)
Theorem apply_gradients_surplus_ignored (w : World) gradients extra :
  length (m_params (_model (self w))) ≤ length gradients →
  apply_gradients (gradients ++ extra) w = apply_gradients gradients w.
Proof.
  intros Hlen. run_method. destruct (lock (self w)); [done|]. simpl.
  by rewrite assign_grads_surplus.
Qed.

(** X11: the assignment loop of [apply_gradients] changes gradients only
    (names and parameter tensors stay), leaves every gradient on the
    policy's device when they were there before, and assigning the same
    gradient set twice is the same as assigning it once. *)
Theorem assign_grads_only_gradients dev gs (ps : list Param) :
  map p_name (assign_grads dev gs ps).2 = map p_name ps
  ∧ map p_data (assign_grads dev gs ps).2 = map p_data ps
  ∧ (grads_on dev ps = true → grads_on dev (assign_grads dev gs ps).2 = true)
  ∧ assign_grads dev gs (assign_grads dev gs ps).2 = assign_grads dev gs ps.
Proof.
  revert ps. induction gs as [|g gs IH]; intros [|p ps]; simpl; try done.
  destruct (IH ps) as (Hn & Hd & Hg & Hi).
  destruct g as [a|]; [destruct (grad_check (p_data p) _) as [[]|e] eqn:Hc|];
    simpl; rewrite ?Hc; simpl; rewrite ?Hn, ?Hd, ?Hi; repeat split; try done.
  - intros [Hp Hps]%andb_prop. apply andb_true_intro. split; [|by apply Hg].
    by apply bool_decide_eq_true.
  - intros [Hp Hps]%andb_prop. apply andb_true_intro. split; [done|by apply Hg].
Qed.

(** X12: with an optimizer whose step leaves gradients alone, a parameter
    whose entry is [None] has, after [apply_gradients], the gradient it had
    before the call. *)
Theorem apply_gradients_absent_entry_after_step (w : World) gradients i p :
  lock (self w) = false →
  gradients !! i = Some None →
  m_params (_model (self w)) !! i = Some p →
  (let ps := (assign_grads (device (self w)) gradients
                (m_params (_model (self w)))).2 in
   map p_grad (optim_step (_optimizer (self w)) ps).2.2 = map p_grad ps) →
  ∃ r w' p', apply_gradients gradients w = Some (r, w')
    ∧ m_params (_model (self w')) !! i = Some p'
    ∧ p_grad p' = p_grad p.
Proof.
  intros Hl Hg Hp Hstep.
  pose proof (assign_grads_lookup_None (device (self w)) _ _ _ _ Hg Hp) as Hps.
  simpl in Hstep.
  destruct (assign_grads (device (self w)) gradients
              (m_params (_model (self w)))).1 as [[]|e] eqn:Hout.
  - destruct (apply_gradients_run w gradients Hl Hout) as (w' & Hrun & Hself & _).
    assert (map p_grad (m_params (_model (self w'))) !! i = Some (p_grad p)) as Hi.
    { rewrite Hself. simpl. rewrite Hstep, lookup_map. by rewrite Hps. }
    rewrite lookup_map in Hi.
    destruct (m_params (_model (self w')) !! i) as [p'|] eqn:Hp'; [|done].
    simpl in Hi. injection Hi as Hi. by eexists _, w', p'.
  - destruct (apply_gradients_run_raise w gradients e Hl Hout)
      as (w' & Hrun & Hself & _).
    exists (Raise e), w', p. split; [exact Hrun|]. split; [|done].
    rewrite Hself. exact Hps.
Qed.

Lemma forallb_map {A B} (f : A → B) (P : B → bool) (l : list A) :
  forallb P (map f l) = forallb (λ x, P (f x)) l.
Proof. induction l as [|x l IH]; simpl; [done|]. by rewrite IH. Qed.

Lemma forallb_true {A} (P : A → bool) (l : list A) :
  (∀ x, P x = true) → forallb P l = true.
Proof. intros H. induction l as [|x l IH]; simpl; [done|]. by rewrite H, IH. Qed.

Lemma module_to_on (d : Device) (m : NNModule) : module_on d (module_to d m) = true.
Proof.
  unfold module_on, grads_on, module_to. simpl. rewrite !forallb_map.
  rewrite !forallb_true; [done|..].
  - intros [n t]. simpl. by apply bool_decide_eq_true.
  - intros p. simpl. destruct (p_grad p); simpl; [|done].
    by apply bool_decide_eq_true.
  - intros p. simpl. by apply bool_decide_eq_true.
Qed.

(** X13: a policy [__init__] returns has its lock free, the config it was
    given, every module tensor on the chosen device, the module's names and
    parameter contents as supplied, and the optimizer that [optimizer]
    builds over the moved module. *)
Theorem init_places_module environ cfg os asp (net : NNModule) s :
  __init__ environ cfg os asp net = Ok s →
  lock s = false
  ∧ config s = cfg
  ∧ module_on (device s) (_model s) = true
  ∧ module_names (_model s) = module_names net
  ∧ map (λ p, t_data (p_data p)) (m_params (_model s))
    = map (λ p, t_data (p_data p)) (m_params net)
  ∧ optimizer cfg (_model s) = Ok (_optimizer s).
Proof.
  unfold __init__.
  destruct (match (if cuda_visible environ then Cuda else Cpu) with
            | Cpu => Ok () | Cuda => cuda_init end) as [[]|e0]; simpl; [|done].
  destruct (optimizer _ _) as [o|e] eqn:Ho; simpl; [|done].
  intros [= <-]. simpl. repeat split; try done.
  - apply module_to_on.
  - unfold module_names, module_to. simpl. by rewrite !map_map.
  - unfold module_to. simpl. by rewrite map_map.
Qed.

(** X14: with a config attached that has no ["lr"] key, [__init__] raises
    [KeyError], unless moving the model to the accelerator has already
    raised (line 57 runs before line 59), in which case that error leaves
    the constructor. *)
Theorem init_missing_lr environ (c : gmap string CfgVal) os asp (net : NNModule) :
  c !! "lr" = None →
  __init__ environ (Some c) os asp net
  = match (if cuda_visible environ then cuda_init else Ok ()) with
    | Ok _ => Raise (KeyError "lr")
    | Raise e => Raise e
    end.
Proof.
  intros Hc. unfold __init__, optimizer. rewrite Hc.
  destruct (cuda_visible environ); [destruct cuda_init|]; done.
Qed.

(** X15: [compute_actions], [compute_gradients], [get_weights],
    [set_weights] and [get_initial_state] leave the optimizer object as
    they found it on every path: [compute_gradients] stops short of the
    step. *)
Theorem optimizer_untouched_without_step obs_batch state_batches batch weights :
  keeps_optimizer (compute_actions obs_batch state_batches)
  ∧ keeps_optimizer (compute_gradients batch)
  ∧ keeps_optimizer get_weights
  ∧ keeps_optimizer (set_weights weights)
  ∧ keeps_optimizer get_initial_state.
Proof. repeat split; keeps_optimizer_tac. Qed.

(** X16: [compute_actions] depends on the policy object and the
    generator state only: from two worlds that agree on both (whatever
    their gradient mode and event log) it gives the same result, and leaves
    both policies as they were. *)
Theorem compute_actions_repeatable (w1 w2 : World) obs_batch state_batches :
  lock (self w1) = false →
  self w2 = self w1 → rng w2 = rng w1 →
  ∃ r w1' w2',
    compute_actions obs_batch state_batches w1 = Some (r, w1')
    ∧ compute_actions obs_batch state_batches w2 = Some (r, w2')
    ∧ self w1' = self w1 ∧ self w2' = self w2.
Proof.
  intros Hl Hs Hr.
  destruct (compute_actions_run w1 obs_batch state_batches Hl)
    as (w1' & H1 & Hs1 & _).
  assert (lock (self w2) = false) as Hl2 by (by rewrite Hs).
  destruct (compute_actions_run w2 obs_batch state_batches Hl2)
    as (w2' & H2 & Hs2 & _).
  exists (compute_actions_result w1 obs_batch state_batches), w1', w2'.
  split; [done|]. split; [|done].
  rewrite H2. unfold compute_actions_result. by rewrite Hs, Hr.
Qed.

End Properties.

(** * The properties at the concrete runtime *)

Section Witnesses.
#[local] Existing Instance Demo.types.
#[local] Existing Instance Demo.runtime.
Import Demo.

Lemma init_builds_policy_on :
  __init__ gpu_env (Some {[ "lr" := 2%Z ]}) () () net = Ok (policy_on Cuda)
  ∧ __init__ cpu_env (Some {[ "lr" := 2%Z ]}) () () net = Ok (policy_on Cpu).
Proof. split; reflexivity. Qed.

Lemma learn_on_batch_is_compute_then_apply_witness :
  lock (self (world_on Cuda)) = false
  ∧ ∃ grads info w1,
      compute_gradients batch (world_on Cuda) = Some (Ok (grads, info), w1)
      ∧ grads_on (device (self w1)) (m_params (_model (self w1))) = true
      ∧ grads_accepted (m_params (_model (self w1))) = true
      ∧ ∃ r w2 w',
          apply_gradients grads w1 = Some (r, w2)
          ∧ learn_on_batch batch (world_on Cuda)
            = Some (match r with Ok _ => Ok info | Raise e => Raise e end, w')
          ∧ self w' = self w2.
Proof.
  split; [reflexivity|].
  eexists _, _, _. split; [reflexivity|]. split; [reflexivity|].
  split; [reflexivity|].
  eapply learn_on_batch_is_compute_then_apply; reflexivity.
Defined.

(** C2: [get_initial_state] uses the model with the lock never acquired:
    the events it appends are not a well-locked call, and while another
    caller holds the lock it runs to its end where [get_weights] waits. *)
Lemma get_initial_state_takes_no_lock :
  (∃ w', get_initial_state (world_on Cpu) = Some (Ok [0%Z], w')
         ∧ trace w' = trace (world_on Cpu) ++ [EvModel])
  ∧ locked_call [EvModel] = false
  ∧ (∃ w', get_initial_state (with_self (set_lock true) (world_on Cpu))
           = Some (Ok [0%Z], w')
         ∧ lock (self w') = true
         ∧ trace w' = [EvModel])
  ∧ get_weights (with_self (set_lock true) (world_on Cpu)) = None.
Proof.
  split; [eexists; split; reflexivity|]. split; [reflexivity|].
  split; [eexists; repeat split; reflexivity|reflexivity].
Qed.

Lemma six_operations_run_locked_witness :
  lock (self (world_on Cuda)) = false
  ∧ runs_locked (compute_actions [1%Z; 2%Z] (Some [9%Z])) (world_on Cuda)
  ∧ runs_locked (learn_on_batch batch) (world_on Cuda)
  ∧ runs_locked (compute_gradients batch) (world_on Cuda)
  ∧ runs_locked (apply_gradients [None; Some 1%Z]) (world_on Cuda)
  ∧ runs_locked get_weights (world_on Cuda)
  ∧ runs_locked (set_weights ∅) (world_on Cuda).
Proof.
  split; [reflexivity|]. apply six_operations_run_locked. reflexivity.
Defined.

Lemma apply_gradients_absent_entry_witness :
  let w := world_trained in
  let gradients := [None; Some 1%Z] in
  let p := mkParam "w" (mkTensor Cuda 3%Z) (Some (mkTensor Cuda 12%Z)) in
  lock (self w) = false
  ∧ gradients !! 0 = Some None
  ∧ m_params (_model (self w)) !! 0 = Some p
  ∧ let params := m_params (_model (self w)) in
    let assigned := assign_grads (device (self w)) gradients params in
    let out := optim_step (_optimizer (self w)) assigned.2 in
    assigned.2 !! 0 = Some p
    ∧ assign_grads (device (self w)) (replicate (length gradients) None) params
      = (Ok (), params)
    ∧ ∃ w', apply_gradients gradients w = Some (out.1, w')
        ∧ _optimizer (self w') = out.2.1
        ∧ m_params (_model (self w')) = out.2.2
        ∧ (map p_grad out.2.2 = map p_grad assigned.2 →
           ∃ p', m_params (_model (self w')) !! 0 = Some p'
                 ∧ p_grad p' = p_grad p).
Proof.
  split; [reflexivity|]. split; [reflexivity|]. split; [reflexivity|].
  exact (apply_gradients_absent_entry world_trained [None; Some 1%Z] 0
           (mkParam "w" (mkTensor Cuda 3%Z) (Some (mkTensor Cuda 12%Z)))
           eq_refl eq_refl eq_refl).
Defined.

Lemma set_weights_get_weights_witness :
  lock (self (world_on Cuda)) = false
  ∧ NoDup (module_names (_model (self (world_on Cuda))))
  ∧ ∃ snapshot w1 w2,
      get_weights (world_on Cuda) = Some (Ok snapshot, w1)
      ∧ set_weights snapshot w1 = Some (Ok (), w2)
      ∧ self w2 = self (world_on Cuda).
Proof.
  assert (NoDup (module_names (_model (self (world_on Cuda))))) as Hnd
    by (apply (bool_decide_unpack _); reflexivity).
  split; [reflexivity|]. split; [exact Hnd|].
  apply set_weights_get_weights; [reflexivity|exact Hnd].
Defined.

Lemma compute_actions_inference_witness :
  lock (self (world_on Cuda)) = false
  ∧ ∃ w', compute_actions [1%Z; 2%Z] (Some [9%Z]) (world_on Cuda)
          = Some (compute_actions_result (world_on Cuda) [1%Z; 2%Z] (Some [9%Z]), w')
      ∧ self w' = self (world_on Cuda)
      ∧ grad_enabled w' = grad_enabled (world_on Cuda).
Proof.
  split; [reflexivity|]. apply compute_actions_inference. reflexivity.
Defined.

Lemma compute_gradients_gradient_set_witness :
  let w := world_on Cuda in
  lock (self w) = false
  ∧ ∃ loss_out ps1,
      loss_fn (grad_enabled w) (set_lock true (self w))
        (set_get_interceptor (UsageTrackingDict_new batch)
           (λ arr, to (device (self w)) (from_numpy arr))) = Ok loss_out
      ∧ backward loss_out
          (optim_zero_grad (_optimizer (self w)) (m_params (_model (self w))))
        = (Ok (), ps1)
      ∧ ∃ grads w1,
          compute_gradients batch w = Some (Ok (grads, base_stats), w1)
          ∧ m_params (_model (self w1)) = ps1
          ∧ length grads = length (m_params (_model (self w1)))
          ∧ ∀ i p, m_params (_model (self w1)) !! i = Some p →
              grads !! i = Some (t_data <$> p_grad p).
Proof.
  split; [reflexivity|]. eexists _, _.
  split; [reflexivity|]. split; [reflexivity|].
  exact (compute_gradients_gradient_set (world_on Cuda) batch _ _
           eq_refl eq_refl eq_refl).
Defined.

Lemma optimizer_default_adam_witness :
  ({[ "lr" := 2%Z ]} : gmap string Z) !! "lr" = Some 2%Z
  ∧ optimizer (Some {[ "lr" := 2%Z ]}) net = torch_optim_Adam (m_params net) (Some 2%Z)
  ∧ optimizer None net = torch_optim_Adam (m_params net) None.
Proof.
  split; [reflexivity|].
  exact (optimizer_default_adam net {[ "lr" := 2%Z ]} 2%Z eq_refl).
Defined.

Lemma apply_gradients_short_sequence_witness :
  let w := world_trained in
  let gradients := [Some 1%Z] in
  lock (self w) = false
  ∧ length gradients < length (m_params (_model (self w)))
  ∧ let params := m_params (_model (self w)) in
    let assigned := assign_grads (device (self w)) gradients params in
    let out := optim_step (_optimizer (self w)) assigned.2 in
    (∀ i, length gradients ≤ i → assigned.2 !! i = params !! i)
    ∧ length assigned.2 = length params
    ∧ assigned.1
      = (assign_grads (device (self w)) gradients
           (take (length gradients) params)).1
    ∧ (∀ i a p, gradients !! i = Some (Some a) → params !! i = Some p →
         assigned.2 !! i
         = Some (set_grad p (Some (to (device (self w)) (from_numpy a)))))
    ∧ ∃ w', apply_gradients gradients w = Some (out.1, w')
        ∧ _optimizer (self w') = out.2.1
        ∧ m_params (_model (self w')) = out.2.2.
Proof.
  assert (length [Some 1%Z] < length (m_params (_model (self world_trained))))
    as Hlen by (simpl; lia).
  split; [reflexivity|]. split; [exact Hlen|].
  exact (apply_gradients_short_sequence world_trained [Some 1%Z] eq_refl Hlen).
Defined.

(** C9: on a policy placed on the accelerator whose model keeps its
    initial recurrent state with its other tensors, [get_initial_state]
    raises [TypeError] where [compute_actions], which moves the recurrent
    state to the host first, returns host arrays. *)
Lemma get_initial_state_accelerator_state :
  model_state_init (_model (self (world_on Cuda))) = [mkTensor Cuda 0%Z]
  ∧ (∃ w', get_initial_state (world_on Cuda)
           = Some (Raise (TypeError "can't convert CUDA tensor to numpy"), w'))
  ∧ (∃ a extra w', compute_actions [1%Z; 2%Z] (Some [9%Z]) (world_on Cuda)
                   = Some (Ok (a, [9%Z], extra), w')).
Proof. split; [reflexivity|]. split; [eexists|eexists _, _, _]; reflexivity. Qed.

Lemma device_decided_at_construction_witness :
  (∃ s, __init__ gpu_env (Some {[ "lr" := 2%Z ]}) () () net = Ok s
        ∧ device s = Cuda)
  ∧ (∃ r w', learn_on_batch batch (world_on Cuda) = Some (r, w')
             ∧ device (self w') = Cuda).
Proof.
  pose proof (device_decided_at_construction gpu_env (Some {[ "lr" := 2%Z ]})
                () () net [] None batch [] ∅) as (_ & Hinit & _ & Hlearn & _).
  split.
  - exists (policy_on Cuda). split; [reflexivity|].
    exact (Hinit (policy_on Cuda) eq_refl).
  - eexists _, _. split; [reflexivity|].
    exact (Hlearn (world_on Cuda) _ _ eq_refl).
Defined.

Lemma get_initial_state_accelerator_raises_witness :
  Exists (λ t, t_device t = Cuda) (model_state_init (_model (self (world_on Cuda))))
  ∧ get_initial_state (world_on Cuda)
    = Some (Raise (TypeError "can't convert CUDA tensor to numpy"),
            log EvModel (world_on Cuda)).
Proof.
  assert (Exists (λ t, t_device t = Cuda)
            (model_state_init (_model (self (world_on Cuda))))) as H
    by (constructor; reflexivity).
  split; [exact H|]. exact (get_initial_state_accelerator_raises (world_on Cuda) H).
Defined.

Lemma held_lock_blocks_witness :
  lock (self world_held) = true
  ∧ compute_actions [1%Z; 2%Z] (Some [9%Z]) world_held = None
  ∧ learn_on_batch batch world_held = None
  ∧ compute_gradients batch world_held = None
  ∧ apply_gradients [None; Some 1%Z] world_held = None
  ∧ get_weights world_held = None
  ∧ set_weights other_weights world_held = None
  ∧ get_initial_state world_held ≠ None.
Proof.
  split; [reflexivity|].
  exact (held_lock_blocks world_held [1%Z; 2%Z] (Some [9%Z]) batch
           [None; Some 1%Z] other_weights eq_refl).
Defined.

Lemma loss_failure_changes_nothing_witness :
  let w := world_on Cuda in
  lock (self w) = false
  ∧ loss_fn (grad_enabled w) (set_lock true (self w))
      (set_get_interceptor (UsageTrackingDict_new ∅)
         (λ arr, to (device (self w)) (from_numpy arr))) = Raise (KeyError "obs")
  ∧ (∃ w', learn_on_batch ∅ w = Some (Raise (KeyError "obs"), w') ∧ self w' = self w)
  ∧ (∃ w', compute_gradients ∅ w = Some (Raise (KeyError "obs"), w') ∧ self w' = self w).
Proof.
  split; [reflexivity|]. split; [reflexivity|].
  exact (loss_failure_changes_nothing (world_on Cuda) ∅ (KeyError "obs")
           eq_refl eq_refl).
Defined.

Lemma learn_on_batch_composes_witness :
  let w := world_on Cuda in
  lock (self w) = false
  ∧ ∃ loss_out ps1 o' ps2,
      loss_fn (grad_enabled w) (set_lock true (self w))
        (set_get_interceptor (UsageTrackingDict_new batch)
           (λ arr, to (device (self w)) (from_numpy arr))) = Ok loss_out
      ∧ backward loss_out
          (optim_zero_grad (_optimizer (self w)) (m_params (_model (self w))))
        = (Ok (), ps1)
      ∧ optim_step (_optimizer (self w)) ps1 = (Ok (), (o', ps2))
      ∧ ∃ w', learn_on_batch batch w = Some (Ok base_stats, w')
          ∧ self w' = set_optimizer o' (set_model (set_params (_model (self w)) ps2) (self w))
          ∧ trace w' = trace w ++ [EvAcquire; EvModel; EvOptimizer; EvModel;
                                   EvOptimizer; EvRelease].
Proof.
  split; [reflexivity|]. eexists _, _, _, _.
  split; [reflexivity|]. split; [reflexivity|]. split; [reflexivity|].
  exact (learn_on_batch_composes (world_on Cuda) batch _ _ _ _
           eq_refl eq_refl eq_refl eq_refl).
Defined.

Lemma get_weights_host_snapshot_witness :
  lock (self (world_on Cuda)) = false
  ∧ ∃ snapshot w',
      get_weights (world_on Cuda) = Some (Ok snapshot, w')
      ∧ self w' = self (world_on Cuda)
      ∧ dom snapshot = list_to_set (module_names (_model (self (world_on Cuda))))
      ∧ ∀ k t, snapshot !! k = Some t → t_device t = Cpu.
Proof.
  split; [reflexivity|]. exact (get_weights_host_snapshot (world_on Cuda) eq_refl).
Defined.

Lemma set_weights_failure_releases_witness :
  let w := world_on Cuda in
  lock (self w) = false
  ∧ dom (∅ : gmap string Tensor) ≠ list_to_set (module_names (_model (self w)))
  ∧ ∃ w', set_weights ∅ w
          = Some (Raise (RuntimeError "Error(s) in loading state_dict"), w')
      ∧ lock (self w') = false
      ∧ _optimizer (self w') = _optimizer (self w)
      ∧ module_names (_model (self w')) = module_names (_model (self w)).
Proof.
  assert (dom (∅ : gmap string Tensor)
          ≠ list_to_set (module_names (_model (self (world_on Cuda))))) as Hdom
    by (apply (bool_decide_unpack _); reflexivity).
  split; [reflexivity|]. split; [exact Hdom|].
  exact (set_weights_failure_releases (world_on Cuda) ∅ eq_refl Hdom).
Defined.

Lemma set_weights_rewrites_contents_only_witness :
  ∃ r w',
    set_weights other_weights (world_on Cuda) = Some (r, w')
    ∧ module_names (_model (self w')) = module_names (_model (self (world_on Cuda)))
    ∧ map (λ p, t_device (p_data p)) (m_params (_model (self w')))
      = map (λ p, t_device (p_data p)) (m_params (_model (self (world_on Cuda))))
    ∧ map p_grad (m_params (_model (self w')))
      = map p_grad (m_params (_model (self (world_on Cuda))))
    ∧ _optimizer (self w') = _optimizer (self (world_on Cuda))
    ∧ device (self w') = device (self (world_on Cuda)).
Proof.
  eexists _, _. split; [reflexivity|].
  exact (set_weights_rewrites_contents_only (world_on Cuda) _ other_weights _ eq_refl).
Defined.

Lemma apply_gradients_raise_skips_step_witness :
  let w := world_trained in
  let gradients := [Some 1%Z; Some (-1)%Z] in
  let e := RuntimeError "assigned grad has data of a different size" in
  lock (self w) = false
  ∧ (assign_grads (device (self w)) gradients (m_params (_model (self w)))).1
    = Raise e
  ∧ ∃ w', apply_gradients gradients w = Some (Raise e, w')
      ∧ lock (self w') = false
      ∧ _optimizer (self w') = _optimizer (self w)
      ∧ m_params (_model (self w'))
        = (assign_grads (device (self w)) gradients (m_params (_model (self w)))).2
      ∧ map p_data (m_params (_model (self w')))
        = map p_data (m_params (_model (self w)))
      ∧ trace w' = trace w ++ [EvAcquire; EvModel; EvRelease].
Proof.
  split; [reflexivity|]. split; [reflexivity|].
  exact (apply_gradients_raise_skips_step world_trained
           [Some 1%Z; Some (-1)%Z]
           (RuntimeError "assigned grad has data of a different size")
           eq_refl eq_refl).
Defined.

Lemma apply_gradients_surplus_ignored_witness :
  let w := world_on Cuda in
  length (m_params (_model (self w))) ≤ length [Some 1%Z; None]
  ∧ apply_gradients ([Some 1%Z; None] ++ [Some 5%Z; None]) w
    = apply_gradients [Some 1%Z; None] w.
Proof.
  assert (length (m_params (_model (self (world_on Cuda))))
          ≤ length [Some 1%Z; None]) as Hlen by (simpl; lia).
  split; [exact Hlen|].
  exact (apply_gradients_surplus_ignored (world_on Cuda) [Some 1%Z; None]
           [Some 5%Z; None] Hlen).
Defined.

Lemma apply_gradients_absent_entry_after_step_witness :
  let w := world_trained in
  let gradients := [Some 1%Z; None] in
  let p := mkParam "b" (mkTensor Cuda 5%Z) (Some (mkTensor Cuda 20%Z)) in
  lock (self w) = false
  ∧ gradients !! 1 = Some None
  ∧ m_params (_model (self w)) !! 1 = Some p
  ∧ (let ps := (assign_grads (device (self w)) gradients
                  (m_params (_model (self w)))).2 in
     map p_grad (optim_step (_optimizer (self w)) ps).2.2 = map p_grad ps)
  ∧ ∃ r w' p', apply_gradients gradients w = Some (r, w')
      ∧ m_params (_model (self w')) !! 1 = Some p'
      ∧ p_grad p' = p_grad p.
Proof.
  split; [reflexivity|]. split; [reflexivity|]. split; [reflexivity|].
  split; [reflexivity|].
  exact (apply_gradients_absent_entry_after_step world_trained [Some 1%Z; None]
           1 (mkParam "b" (mkTensor Cuda 5%Z) (Some (mkTensor Cuda 20%Z)))
           eq_refl eq_refl eq_refl eq_refl).
Defined.

Lemma init_places_module_witness :
  let s := policy_on Cuda in
  let cfg : option (gmap string Z) := Some {[ "lr" := 2%Z ]} in
  __init__ gpu_env cfg () () net = Ok s
  ∧ lock s = false
  ∧ config s = cfg
  ∧ module_on (device s) (_model s) = true
  ∧ module_names (_model s) = module_names net
  ∧ map (λ p, t_data (p_data p)) (m_params (_model s))
    = map (λ p, t_data (p_data p)) (m_params net)
  ∧ optimizer cfg (_model s) = Ok (_optimizer s).
Proof.
  split; [reflexivity|].
  exact (init_places_module gpu_env (Some {[ "lr" := 2%Z ]}) () () net
           (policy_on Cuda) eq_refl).
Defined.

Lemma init_missing_lr_witness :
  ({[ "gamma" := 1%Z ]} : gmap string Z) !! "lr" = None
  ∧ __init__ cpu_env (Some {[ "gamma" := 1%Z ]}) () () net = Raise (KeyError "lr")
  ∧ __init__ gpu_env (Some {[ "gamma" := 1%Z ]}) () () net = Raise (KeyError "lr").
Proof.
  split; [reflexivity|]. split.
  - exact (init_missing_lr cpu_env {[ "gamma" := 1%Z ]} () () net eq_refl).
  - exact (init_missing_lr gpu_env {[ "gamma" := 1%Z ]} () () net eq_refl).
Defined.

Lemma compute_actions_repeatable_witness :
  let w1 := world_on Cuda in
  let w2 := set_grad_enabled false (log EvModel (world_on Cuda)) in
  lock (self w1) = false ∧ self w2 = self w1 ∧ rng w2 = rng w1
  ∧ ∃ r w1' w2',
      compute_actions [1%Z; 2%Z] (Some [9%Z]) w1 = Some (r, w1')
      ∧ compute_actions [1%Z; 2%Z] (Some [9%Z]) w2 = Some (r, w2')
      ∧ self w1' = self w1 ∧ self w2' = self w2.
Proof.
  split; [reflexivity|]. split; [reflexivity|]. split; [reflexivity|].
  exact (compute_actions_repeatable (world_on Cuda)
           (set_grad_enabled false (log EvModel (world_on Cuda)))
           [1%Z; 2%Z] (Some [9%Z]) eq_refl eq_refl eq_refl).
Defined.

End Witnesses.
